(** * CnQuant_utilities.get_variables_from_path

    A shallow embedding of the typed environment-variable accessors of
    [get_variables_from_path.py] and the properties its specification
    states about them.

    Modelling conventions.
    - A Python [str] is a [string]; each character stands for the code
      point of the same number (0..255).
    - A Python [int] is a [Z].  Conversion between integers and decimal
      text is subject to the interpreter's digit limit, at its default of
      4300 digits: [int] of a longer text and [str] of a longer number
      raise [ValueError].
    - A [pathlib.Path] is the POSIX flavour, held in its normal form (root
      and components), so that two texts that name the same path object
      give equal values.
    - [os.environ] is a finite map from names to values; the file system is
      seen through the set of path strings for which [os.path.exists]
      answers [True].
    - A function of the module is a computation in the monad [Py]: it reads
      the world, may print, may query the file system, and either returns
      a value or raises an exception.  The world reached is kept in both
      cases, as in Python.  Writing to standard output always succeeds. *)

From Stdlib Require Import ZArith Ascii String List Lia.
From stdpp Require Import base option gmap strings pretty.

Local Open Scope string_scope.
Local Open Scope Z_scope.

(** ** The world the module runs in *)

(** What a call does to the outside: one call of [print], with the text it
    writes to standard output (a newline inside the text is part of it), or
    a file-system query made by [os.path.exists]. *)
Inductive event : Type :=
| EvPrint (text : string)
| EvStat (path : string).

Record World : Type := mkWorld {
  environ : gmap string string;   (* os.environ *)
  fs : gset string;               (* the paths that exist *)
  events : list event             (* oldest first *)
}.

Definition record_event (e : event) (w : World) : World :=
  {| environ := environ w; fs := fs w; events := events w ++ [e] |}.

(** ** Exceptions and the [Py] monad *)

(** The two exception classes that occur: the built-in [ValueError] (raised
    by [int] and [float]) and instances of the module's own class, with
    their attributes [variable_name] and [message]. *)
Inductive exception : Type :=
| ValueError
| NotFoundError (variable_name message : string).

(** [EnvironmentVariableNotFoundError.__init__]: an empty [message] is
    replaced by the standard text. *)
Definition EnvironmentVariableNotFoundError
    (variable_name : string) (message : string) : exception :=
  NotFoundError variable_name
    (if decide (message = "")
     then "Environment variable '" ++ variable_name ++ "' not found."
     else message).

Inductive outcome (A : Type) : Type :=
| Return (a : A)
| Raise (e : exception).
Arguments Return {A} a.
Arguments Raise {A} e.

Definition Py (A : Type) : Type := World → outcome A * World.

Definition Py_ret {A} (a : A) : Py A := λ w, (Return a, w).

Definition Py_bind {A B} (k : A → Py B) (c : Py A) : Py B :=
  λ w, match c w with
       | (Return a, w') => k a w'
       | (Raise e, w') => (Raise e, w')
       end.

#[global] Instance Py_mret : MRet Py := @Py_ret.
#[global] Instance Py_mbind : MBind Py := @Py_bind.

Definition ret {A} (a : A) : Py A := mret a.

Definition raise {A} (e : exception) : Py A := λ w, (Raise e, w).

(** [try: body except ValueError: handler]. Any other exception passes. *)
Definition try_except_ValueError {A} (body handler : Py A) : Py A :=
  λ w, match body w with
       | (Raise ValueError, w') => handler w'
       | r => r
       end.

(** ** Built-ins and library functions the module calls *)

Definition os_getenv (key : string) : Py (option string) :=
  λ w, (Return (environ w !! key), w).

Definition os_path_exists (path : string) : Py bool :=
  λ w, (Return (bool_decide (path ∈ fs w)), record_event (EvStat path) w).

Definition print (text : string) : Py unit :=
  λ w, (Return tt, record_event (EvPrint text) w).

(** *** [pathlib.Path]

    A path object is its root ("", "/" or "//") and its components.
    Building one from a text splits the text at "/", drops empty
    components and "." components, and keeps "..".  Exactly two leading
    slashes are a root of their own; one, or three and more, are "/". *)
Record PurePath : Type := mkPurePath {
  path_root : string;
  path_tail : list string
}.

(** [s.split("/")]. *)
Fixpoint split_slash (s : string) : list string :=
  match s with
  | EmptyString => [EmptyString]
  | String c r =>
      if Ascii.eqb c "/" then EmptyString :: split_slash r
      else match split_slash r with
           | x :: xs => String c x :: xs
           | [] => [String c EmptyString]
           end
  end.

(** [posixpath.splitroot]: the root and the rest. *)
Definition splitroot (s : string) : string * string :=
  match s with
  | String "/" (String "/" (String "/" r)) => ("/", String "/" (String "/" r))
  | String "/" (String "/" r) => ("//", r)
  | String "/" r => ("/", r)
  | _ => ("", s)
  end.

Definition Path (s : string) : PurePath :=
  let '(root, rel) := splitroot s in
  mkPurePath root
    (filter (λ x, x ≠ "" ∧ x ≠ ".") (split_slash rel)).

(** [str(path)]. *)
Definition join_slash (parts : list string) : string :=
  match parts with
  | [] => ""
  | x :: xs => fold_left (λ acc y, acc ++ "/" ++ y) xs x
  end.

Definition str_path (p : PurePath) : string :=
  match path_root p, path_tail p with
  | "", [] => "."
  | root, tail => root ++ join_slash tail
  end.

Definition ord (c : ascii) : Z := Z.of_N (N_of_ascii c).
Definition chr (n : Z) : ascii := ascii_of_N (Z.to_N n).

(** [str.lower]: the upper-case letters below code point 256 are [A]..[Z]
    and 0xC0..0xDE without the multiplication sign 0xD7; each has its
    lower-case partner 32 places up. *)
Definition lower_char (c : ascii) : ascii :=
  let n := ord c in
  if ((65 <=? n) && (n <=? 90)) || ((192 <=? n) && (n <=? 222) && negb (n =? 215))
  then chr (n + 32) else c.

Fixpoint lower (s : string) : string :=
  match s with
  | EmptyString => EmptyString
  | String c r => String (lower_char c) (lower r)
  end.

(** [str(object=o)] for an optional string: [None] prints as its name, a
    string is itself.  It has no failing case. *)
Definition py_str (o : option string) : Py string :=
  ret (match o with None => "None" | Some s => s end).

(** The decimal text of an integer, and the text an f-string shows for a
    [bool]. *)
Definition str_int (n : Z) : string := pretty n.
Definition str_bool (b : bool) : string := if b then "True" else "False".

(** *** The limit on integer/string conversion

    [sys.get_int_max_str_digits()], at its default.  A conversion that
    involves more digits raises [ValueError]; a limit of 0 would switch
    the check off. *)
Definition int_max_str_digits : Z := 4300.

Definition exceeds_digit_limit (digits : Z) : bool :=
  (0 <? int_max_str_digits) && (int_max_str_digits <? digits).

(** The number of decimal digits of [n], sign not counted. *)
Definition digit_count (n : Z) : Z :=
  Z.of_nat (String.length (str_int (Z.abs n))).

(** [str(n)], as an f-string field [{n}] computes it. *)
Definition py_format_int (n : Z) : Py string :=
  if exceeds_digit_limit (digit_count n) then raise ValueError
  else ret (str_int n).

(** *** [int(s)] for a string, base ten

    Accepted: optional white space, an optional sign, decimal digits with
    single underscores allowed between digits, optional white space; the
    digits may not be more than the limit allows. *)

(** White space for [int]: tab..carriage return and space; of the
    characters above 127, next-line 0x85 and no-break space 0xA0. *)
Definition int_space (c : ascii) : bool :=
  let n := ord c in
  ((9 <=? n) && (n <=? 13)) || (n =? 32) || (n =? 133) || (n =? 160).

Definition digit_value (c : ascii) : option Z :=
  let n := ord c in
  if (48 <=? n) && (n <=? 57) then Some (n - 48) else None.

Fixpoint skip_space (s : string) : string :=
  match s with
  | String c r => if int_space c then skip_space r else s
  | EmptyString => EmptyString
  end.

(** Reads digits and underscores from [s]; [acc] is the value so far,
    [prev_us] tells whether the last character read was an underscore,
    [n] counts the digits read.  Fails on a doubled or trailing underscore;
    otherwise gives the value, the digit count and the rest. *)
Fixpoint scan_digits (acc : Z) (prev_us : bool) (n : nat) (s : string)
    : option (Z * nat * string) :=
  match s with
  | String c r =>
      match digit_value c with
      | Some d => scan_digits (10 * acc + d) false (S n) r
      | None =>
          if Ascii.eqb c "_"
          then (if prev_us then None else scan_digits acc true n r)
          else (if prev_us then None else Some (acc, n, s))
      end
  | EmptyString => if prev_us then None else Some (acc, n, EmptyString)
  end.

(** What is made of the scanned digits: there must be at least one and
    no more than the limit allows, and only white space may follow. *)
Definition finish_int (sign : Z) (scanned : option (Z * nat * string)) : option Z :=
  match scanned with
  | Some (v, n, rest) =>
      if (n =? 0)%nat then None
      else if exceeds_digit_limit (Z.of_nat n) then None
      else match skip_space rest with
           | EmptyString => Some (sign * v)
           | _ => None
           end
  | None => None
  end.

Definition int_of_str (s : string) : option Z :=
  let s1 := skip_space s in
  let '(sign, s2) :=
    match s1 with
    | String "+" r => (1, r)
    | String "-" r => (-1, r)
    | _ => (1, s1)
    end in
  match s2 with
  | String "_" _ => None
  | _ => finish_int sign (scan_digits 0 false 0 s2)
  end.

Definition py_int (s : string) : Py Z :=
  match int_of_str s with
  | Some n => ret n
  | None => raise ValueError
  end.

(** ** The module's functions *)

Definition get_log_directory (env_variable : string) : Py PurePath :=
  log_directory ← os_getenv env_variable;
  log_directory ←
    match log_directory with
    | None => ret "."
    | Some log_directory =>
        found ← os_path_exists log_directory;
        if negb found
        then raise (EnvironmentVariableNotFoundError env_variable "")
        else ret log_directory
    end;
  ret (Path log_directory).

Definition get_path_from_env (env_variable : string) (check_if_exists : bool)
    : Py PurePath :=
  env_value ← os_getenv env_variable;
  match env_value with
  | None => raise (EnvironmentVariableNotFoundError env_variable "")
  | Some env_value =>
      let path := Path env_value in
      missing ←
        (if check_if_exists
         then found ← os_path_exists env_value; ret (negb found)
         else ret false);
      if (missing : bool)
      then raise (EnvironmentVariableNotFoundError env_variable "")
      else ret path
  end.

Definition get_integer_from_env (env_variable : string) (default_value : Z)
    : Py Z :=
  env_value ← os_getenv env_variable;
  match env_value with
  | None =>
      shown ← py_format_int default_value;
      print ("Environment variable " ++ env_variable
             ++ " has not been found. Defaulting to " ++ shown);;
      ret default_value
  | Some env_value =>
      try_except_ValueError
        (py_int env_value)
        (shown ← py_format_int default_value;
         print ("Error: " ++ env_variable ++ " environment variable '"
                ++ env_variable ++ "' is not a valid integer. Defaulting to "
                ++ shown ++ ".");;
         ret default_value)
  end.

(** Floating-point numbers are kept abstract: [float_of_str] is what
    [float(s)] computes for a string ([None] where it raises [ValueError]),
    [str_float] the text an f-string shows for a float. *)
Section Float.
Context {float : Type}.
Variable float_of_str : string → option float.
Variable str_float : float → string.

Definition py_float (s : string) : Py float :=
  match float_of_str s with
  | Some x => ret x
  | None => raise ValueError
  end.

Definition get_float_from_env (env_variable : string) (default_value : float)
    : Py float :=
  env_value ← os_getenv env_variable;
  match env_value with
  | None =>
      print ("Error: " ++ env_variable
             ++ " environment variable has not been set in .env file. Defaulting to "
             ++ str_float default_value ++ ".");;
      ret default_value
  | Some env_value =>
      try_except_ValueError
        (py_float env_value)
        (print ("Error: " ++ env_variable ++ " environment variable '"
                ++ env_variable ++ "' is not a valid float. Defaulting to "
                ++ str_float default_value ++ ".");;
         ret default_value)
  end.
End Float.

Definition get_string_from_env (env_variable : string) (default_value : string)
    (error_on_missing_value : bool) : Py string :=
  env_value ← os_getenv env_variable;
  (if error_on_missing_value && bool_decide (env_value = None)
   then raise (EnvironmentVariableNotFoundError env_variable "")
   else ret tt);;
  try_except_ValueError
    (py_str env_value)
    (print ("Error: " ++ env_variable ++ " environment variable '"
            ++ env_variable ++ "' is not a valid float. Defaulting to "
            ++ default_value ++ ".");;
     ret default_value).

Definition get_boolean_from_env (env_variable : string) (default_value : bool)
    : Py bool :=
  env_value ← os_getenv env_variable;
  match env_value with
  | None =>
      print ("Error: " ++ env_variable
             ++ " environment variable has not been set in .env file. Defaulting to "
             ++ str_bool default_value ++ ".");;
      ret default_value
  | Some env_value =>
      let lower_env_value := lower env_value in
      if bool_decide (lower_env_value ∈ ["true"; "1"; "yes"; "on"])
      then ret true
      else if bool_decide (lower_env_value ∈ ["false"; "0"; "no"; "off"])
      then ret false
      else
        print ("Error: " ++ env_variable ++ " environment variable '"
               ++ env_value ++ "' is not a valid boolean. Defaulting to "
               ++ str_bool default_value ++ ".");;
        ret default_value
  end.

(** ** Running computations *)

Definition result {A} (c : Py A) (w : World) : outcome A := fst (c w).
Definition world_after {A} (c : Py A) (w : World) : World := snd (c w).

(** ** Worlds to run in *)

Definition world0 : World :=
  {| environ := {[ "PORT" := "42"; "NAME" := "abc"; "DEBUG" := "TRUE";
                   "LOGS" := "/var/log"; "GONE" := "/no/such" ]};
     fs := {[ "/var/log" ]};
     events := [] |}.

Definition world_of (name value : string) : World :=
  {| environ := {[ name := value ]}; fs := ∅; events := [] |}.

(** ** Vocabulary of the properties *)




Definition boolean_word (v : string) : bool :=
  bool_decide (lower v ∈ ["true"; "1"; "yes"; "on"; "false"; "0"; "no"; "off"]).

(** Two worlds with the same environment and the same file system; they
    may differ in what has been printed or asked so far. *)
Definition same_env (w w' : World) : Prop :=
  environ w = environ w' ∧ fs w = fs w'.

(** [c] leaves environment and file system as they are, and its outcome
    depends on nothing else. *)
Definition reader {A} (c : Py A) : Prop :=
  ∀ w, same_env w (world_after c w)
       ∧ ∀ w', same_env w w' → result c w' = result c w.

(** The environment (and the file system) after a call is the one before
    it; a second call right after the first, or a call in any other world
    with that environment and file system, has the same outcome. *)
Definition idempotent {A} (c : Py A) : Prop :=
  ∀ w,
    environ (world_after c w) = environ w
    ∧ fs (world_after c w) = fs w
    ∧ result c (world_after c w) = result c w
    ∧ ∀ w', environ w' = environ w → fs w' = fs w → result c w' = result c w.

(** What a call adds to the record of outside actions. *)
Definition new_events {A} (c : Py A) (w : World) : list event :=
  drop (length (events w)) (events (world_after c w)).

(** [c] is silent where the variable is set and passes [well_formed];
    everywhere else it calls [print] exactly once, and does nothing more. *)
Definition announces_fallback {A} (c : Py A) (name : string)
    (well_formed : string → bool) : Prop :=
  ∀ w,
    match environ w !! name with
    | Some v =>
        if well_formed v then new_events c w = []
        else ∃ text, new_events c w = [EvPrint text]
    | None => ∃ text, new_events c w = [EvPrint text]
    end.

(** A text of decimal digits, at least one, and the integer it writes. *)
Definition is_decimal_text (s : string) : bool :=
  negb (String.eqb s "")
  && forallb (λ c, bool_decide (is_Some (digit_value c))) (list_ascii_of_string s).

Definition decimal_value (s : string) : Z :=
  fold_left (λ acc c, 10 * acc + default 0 (digit_value c)) (list_ascii_of_string s) 0.

(** The digit 1, written 4301 times. *)
Definition ones_4301 : string := N.iter 4301 (String "1") "".

(** The value a fallback gives: the default, unless showing it in the
    message is refused, in which case [ValueError] leaves the function. *)
Definition fallback_outcome (default_value : Z) : outcome Z :=
  if exceeds_digit_limit (digit_count default_value) then Raise ValueError
  else Return default_value.

(** Some character of [s] is white space; every character of [s] is. *)
Fixpoint has_space (s : string) : bool :=
  match s with
  | EmptyString => false
  | String c r => int_space c || has_space r
  end.

Fixpoint all_space (s : string) : bool :=
  match s with
  | EmptyString => true
  | String c r => int_space c && all_space r
  end.

(** The outcome of [c] is the same after the step [f] as before it. *)
Definition unaffected_by {A} (c : Py A) (f : World → World) : Prop :=
  ∀ w, result c (f w) = result c w.

(** What a call of each accessor does to the world. *)
Definition accessor_steps {float : Type}
    (float_of_str : string → option float) (str_float : float → string)
    (name : string) (check_if_exists error_on_missing_value : bool)
    (default_string : string) (default_int : Z) (default_float : float)
    (default_bool : bool) : list (World → World) :=
  [ world_after (get_log_directory name);
    world_after (get_path_from_env name check_if_exists);
    world_after (get_integer_from_env name default_int);
    world_after (get_float_from_env float_of_str str_float name default_float);
    world_after (get_string_from_env name default_string error_on_missing_value);
    world_after (get_boolean_from_env name default_bool) ].

(** * Properties *)

Ltac py_unfold :=
  unfold result, world_after, try_except_ValueError, py_int, py_str, py_format_int,
    ret, raise,
    os_getenv, os_path_exists, print,
    mbind, Py_mbind, Py_bind, mret, Py_mret, Py_ret in *.

Ltac py_run := py_unfold; simpl in *.

(** ** get_path_from_env *)

(** C2: with the variable unset, [get_path_from_env] raises the module's
    error for the variable, whatever [check_if_exists] is; nothing is
    printed and the file system is not asked. *)
Theorem get_path_from_env_unset (w : World) (env_variable : string)
    (check_if_exists : bool) :
  environ w !! env_variable = None →
  get_path_from_env env_variable check_if_exists w
  = (Raise (NotFoundError env_variable
              ("Environment variable '" ++ env_variable ++ "' not found.")), w).
Proof.
  intros Hunset. unfold get_path_from_env. py_run. by rewrite Hunset.
Qed.

Lemma get_path_from_env_unset_witness :
  environ world0 !! "NOPE" = None
  ∧ get_path_from_env "NOPE" true world0
    = (Raise (NotFoundError "NOPE" "Environment variable 'NOPE' not found."), world0)
  ∧ get_path_from_env "NOPE" false world0
    = (Raise (NotFoundError "NOPE" "Environment variable 'NOPE' not found."), world0).
Proof.
  split; [reflexivity |].
  split; apply (get_path_from_env_unset world0 "NOPE"); reflexivity.
Defined.

(** C9: with the variable set and [check_if_exists] false,
    [get_path_from_env] returns the value as a path and does not raise,
    whether or not the path exists; the file system is not asked. *)
Theorem get_path_from_env_unchecked (w : World) (env_variable env_value : string) :
  environ w !! env_variable = Some env_value →
  get_path_from_env env_variable false w = (Return (Path env_value), w).
Proof.
  intros Hset. unfold get_path_from_env. py_run. by rewrite Hset.
Qed.

Lemma get_path_from_env_unchecked_witness :
  environ world0 !! "GONE" = Some "/no/such"
  ∧ ("/no/such" ∉ fs world0)
  ∧ get_path_from_env "GONE" false world0 = (Return (Path "/no/such"), world0).
Proof.
  split; [reflexivity |].
  split; [by vm_compute |].
  apply (get_path_from_env_unchecked world0 "GONE" "/no/such"). reflexivity.
Defined.

(** ** get_log_directory *)

(** C10: with the variable unset, [get_log_directory] returns the relative
    path ["."] as it stands, does not raise, and leaves the world as it was:
    in particular it makes no file-system query ([EvStat]), so the answer
    does not depend on what exists. *)
Theorem get_log_directory_unset (w : World) (env_variable : string) :
  environ w !! env_variable = None →
  get_log_directory env_variable w = (Return (Path "."), w).
Proof.
  intros Hunset. unfold get_log_directory. py_run. by rewrite Hunset.
Qed.

Lemma get_log_directory_unset_witness :
  environ world0 !! "NOPE" = None
  ∧ ("." ∉ fs world0)
  ∧ get_log_directory "NOPE" world0 = (Return (Path "."), world0).
Proof.
  split; [reflexivity |].
  split; [by vm_compute |].
  apply (get_log_directory_unset world0 "NOPE"). reflexivity.
Defined.

Lemma get_log_directory_result (w : World) (env_variable : string) :
  result (get_log_directory env_variable) w
  = match environ w !! env_variable with
    | None => Return (Path ".")
    | Some log_directory =>
        if decide (log_directory ∈ fs w)
        then Return (Path log_directory)
        else Raise (NotFoundError env_variable
                      ("Environment variable '" ++ env_variable ++ "' not found."))
    end.
Proof.
  unfold get_log_directory. py_run.
  destruct (environ w !! env_variable) as [log_directory|]; simpl; [| done].
  destruct (decide (log_directory ∈ fs w)) as [Hin|Hnot].
  - by rewrite bool_decide_eq_true_2.
  - by rewrite bool_decide_eq_false_2.
Qed.

Lemma get_log_directory_fs (w : World) (env_variable : string) :
  fs (world_after (get_log_directory env_variable) w) = fs w.
Proof.
  unfold get_log_directory. py_run.
  destruct (environ w !! env_variable) as [log_directory|]; simpl; [| done].
  by destruct (bool_decide (log_directory ∈ fs w)).
Qed.

(** C6: [get_log_directory] returns the current directory (the path ["."])
    when the variable is unset; the configured path when the variable is
    set and the path exists; raises the module's error, carrying the
    variable's name, when the variable is set and the path does not exist.
    The set of existing paths is the same afterwards: nothing is created. *)
Theorem get_log_directory_spec (w : World) (env_variable : string) :
  (environ w !! env_variable = None →
   result (get_log_directory env_variable) w = Return (Path "."))
  ∧ (∀ log_directory,
       environ w !! env_variable = Some log_directory →
       log_directory ∈ fs w →
       result (get_log_directory env_variable) w = Return (Path log_directory))
  ∧ (∀ log_directory,
       environ w !! env_variable = Some log_directory →
       log_directory ∉ fs w →
       result (get_log_directory env_variable) w
       = Raise (NotFoundError env_variable
                  ("Environment variable '" ++ env_variable ++ "' not found.")))
  ∧ fs (world_after (get_log_directory env_variable) w) = fs w.
Proof.
  rewrite get_log_directory_result. repeat split.
  - by intros ->.
  - intros p -> Hin. by rewrite decide_True.
  - intros p -> Hnot. by rewrite decide_False.
  - apply get_log_directory_fs.
Qed.

Lemma get_log_directory_spec_witness :
  result (get_log_directory "NOPE") world0 = Return (Path ".")
  ∧ result (get_log_directory "LOGS") world0 = Return (Path "/var/log")
  ∧ result (get_log_directory "GONE") world0
    = Raise (NotFoundError "GONE" "Environment variable 'GONE' not found.").
Proof.
  split; [| split].
  - apply (proj1 (get_log_directory_spec world0 "NOPE")). reflexivity.
  - apply (proj1 (proj2 (get_log_directory_spec world0 "LOGS")) "/var/log").
    + reflexivity.
    + by vm_compute.
  - apply (proj1 (proj2 (proj2 (get_log_directory_spec world0 "GONE"))) "/no/such").
    + reflexivity.
    + by vm_compute.
Defined.

Example get_log_directory_existing :
  result (get_log_directory "LOGS") world0 = Return (Path "/var/log").
Proof. reflexivity. Qed.

Example get_log_directory_missing :
  result (get_log_directory "GONE") world0
  = Raise (NotFoundError "GONE" "Environment variable 'GONE' not found.").
Proof. reflexivity. Qed.

(** ** get_string_from_env *)

(** [str(object=env_value)] returns for every optional string, in every
    world, so a handler guarding it is never entered. *)
Lemma py_str_returns (o : option string) (w : World) :
  ∃ s, py_str o w = (Return s, w).
Proof. eexists. reflexivity. Qed.

Lemma try_py_str (o : option string) (handler : Py string) (w : World) :
  try_except_ValueError (py_str o) handler w = py_str o w.
Proof. reflexivity. Qed.

Lemma get_string_from_env_unset_lenient (w : World) (env_variable default_value : string) :
  environ w !! env_variable = None →
  get_string_from_env env_variable default_value false w = (Return "None", w).
Proof.
  intros Hunset. unfold get_string_from_env. py_run. by rewrite Hunset.
Qed.

(** C1 (the code departs from it): with the variable unset and
    [error_on_missing_value] false, [get_string_from_env] does not raise,
    but what it returns is the text ["None"], not the default it was given. *)
Theorem get_string_from_env_unset_gives_None_text :
  environ world0 !! "NOPE" = None
  ∧ get_string_from_env "NOPE" "fallback" false world0 = (Return "None", world0)
  ∧ result (get_string_from_env "NOPE" "fallback" false) world0 ≠ Return "fallback".
Proof.
  split; [reflexivity |].
  split; [reflexivity | discriminate].
Qed.

(** C8: with the variable set, [get_string_from_env] returns the value
    itself, whatever [error_on_missing_value] and [default_value] are, and
    prints nothing.  The [except ValueError] branch cannot be entered, for
    any input: [str] of an optional string never raises [ValueError], any
    handler around it is dead code, and so the function's outcome is the same
    for every [default_value]. *)
Theorem get_string_from_env_set (w : World) (env_variable env_value default_value : string)
    (error_on_missing_value : bool) :
  environ w !! env_variable = Some env_value →
  get_string_from_env env_variable default_value error_on_missing_value w
  = (Return env_value, w)
  ∧ (∀ (o : option string) (w' : World) (handler : Py string),
       result (py_str o) w' ≠ Raise ValueError
       ∧ try_except_ValueError (py_str o) handler w' = py_str o w')
  ∧ (∀ (name d d' : string) (e : bool) (w' : World),
       get_string_from_env name d e w' = get_string_from_env name d' e w').
Proof.
  intros Hset. split; [| split].
  - unfold get_string_from_env. py_run. rewrite Hset.
    rewrite bool_decide_eq_false_2 by done. by rewrite andb_false_r.
  - intros o w' handler. split; [| apply try_py_str].
    destruct (py_str_returns o w') as [s Hs]. unfold result. by rewrite Hs.
  - intros name d d' e w'. unfold get_string_from_env. py_run.
    by destruct (e && bool_decide (environ w' !! name = None)).
Qed.

Lemma get_string_from_env_set_witness :
  environ world0 !! "NAME" = Some "abc"
  ∧ get_string_from_env "NAME" "fallback" true world0 = (Return "abc", world0)
  ∧ get_string_from_env "NAME" "" false world0 = (Return "abc", world0).
Proof.
  split; [reflexivity |].
  split.
  - apply (get_string_from_env_set world0 "NAME" "abc" "fallback" true). reflexivity.
  - apply (get_string_from_env_set world0 "NAME" "abc" "" false). reflexivity.
Defined.

(** ** get_boolean_from_env *)

(** [get_boolean_from_env] always returns; what it returns depends on the
    lower-cased value only. *)
Lemma get_boolean_from_env_result (w : World) (env_variable : string)
    (default_value : bool) :
  result (get_boolean_from_env env_variable default_value) w
  = Return
      match environ w !! env_variable with
      | None => default_value
      | Some env_value =>
          if decide (lower env_value ∈ ["true"; "1"; "yes"; "on"]) then true
          else if decide (lower env_value ∈ ["false"; "0"; "no"; "off"]) then false
          else default_value
      end.
Proof.
  unfold get_boolean_from_env. py_run.
  destruct (environ w !! env_variable) as [env_value|]; simpl; [| done].
  destruct (decide (lower env_value ∈ ["true"; "1"; "yes"; "on"])) as [Ht|Ht].
  { by rewrite bool_decide_eq_true_2. }
  rewrite bool_decide_eq_false_2 by done.
  destruct (decide (lower env_value ∈ ["false"; "0"; "no"; "off"])) as [Hf|Hf].
  { by rewrite bool_decide_eq_true_2. }
  by rewrite bool_decide_eq_false_2.
Qed.

(** C4: [get_boolean_from_env] returns [True] when the lower-cased value
    is one of "true", "1", "yes", "on"; [False] when it is one of "false",
    "0", "no", "off"; and the default for every other value and when the
    variable is unset. *)
Theorem get_boolean_from_env_spec (w : World) (env_variable : string)
    (default_value : bool) :
  (∀ env_value,
     environ w !! env_variable = Some env_value →
     lower env_value ∈ ["true"; "1"; "yes"; "on"] →
     result (get_boolean_from_env env_variable default_value) w = Return true)
  ∧ (∀ env_value,
       environ w !! env_variable = Some env_value →
       lower env_value ∈ ["false"; "0"; "no"; "off"] →
       result (get_boolean_from_env env_variable default_value) w = Return false)
  ∧ (∀ env_value,
       environ w !! env_variable = Some env_value →
       lower env_value ∉ ["true"; "1"; "yes"; "on"] →
       lower env_value ∉ ["false"; "0"; "no"; "off"] →
       result (get_boolean_from_env env_variable default_value) w
       = Return default_value)
  ∧ (environ w !! env_variable = None →
     result (get_boolean_from_env env_variable default_value) w
     = Return default_value).
Proof.
  rewrite get_boolean_from_env_result. repeat split.
  - intros v -> Ht. by rewrite decide_True.
  - intros v -> Hf. rewrite decide_False, decide_True; [done.. |].
    intros Ht. apply list_elem_of_In in Ht, Hf. simpl in Ht, Hf.
    intuition congruence.
  - intros v -> Ht Hf. by rewrite !decide_False.
  - by intros ->.
Qed.

Lemma get_boolean_from_env_spec_witness :
  result (get_boolean_from_env "DEBUG" false) world0 = Return true
  ∧ result (get_boolean_from_env "FLAG" true) (world_of "FLAG" "Off") = Return false
  ∧ result (get_boolean_from_env "FLAG" true) (world_of "FLAG" "maybe") = Return true
  ∧ result (get_boolean_from_env "NOPE" false) world0 = Return false.
Proof.
  split; [| split; [| split]].
  - apply (proj1 (get_boolean_from_env_spec world0 "DEBUG" false) "TRUE").
    + reflexivity.
    + compute_done.
  - apply (proj1 (proj2 (get_boolean_from_env_spec (world_of "FLAG" "Off") "FLAG" true))
             "Off").
    + reflexivity.
    + compute_done.
  - apply (proj1 (proj2 (proj2
             (get_boolean_from_env_spec (world_of "FLAG" "maybe") "FLAG" true))) "maybe").
    + reflexivity.
    + compute_done.
    + compute_done.
  - apply (proj2 (proj2 (proj2 (get_boolean_from_env_spec world0 "NOPE" false)))).
    reflexivity.
Defined.

Example get_boolean_from_env_true_words (default_value : bool) :
  Forall (λ v, result (get_boolean_from_env "FLAG" default_value) (world_of "FLAG" v)
               = Return true)
         ["TRUE"; "True"; "true"; "tRuE"; "1"; "yes"; "YES"; "on"; "On"].
Proof. repeat constructor. Qed.

Example get_boolean_from_env_false_words (default_value : bool) :
  Forall (λ v, result (get_boolean_from_env "FLAG" default_value) (world_of "FLAG" v)
               = Return false)
         ["FALSE"; "False"; "false"; "0"; "no"; "No"; "off"; "OFF"].
Proof. repeat constructor. Qed.

Example get_boolean_from_env_other_words (default_value : bool) :
  Forall (λ v, result (get_boolean_from_env "FLAG" default_value) (world_of "FLAG" v)
               = Return default_value)
         ["maybe"; ""; " true"; "true "; "2"; "t"; "y"; "enabled"; "None"].
Proof. repeat constructor. Qed.

Example get_boolean_from_env_prints :
  get_boolean_from_env "DEBUG" false (world_of "DEBUG" "maybe")
  = (Return false,
     record_event
       (EvPrint "Error: DEBUG environment variable 'maybe' is not a valid boolean. Defaulting to False.")
       (world_of "DEBUG" "maybe")).
Proof. reflexivity. Qed.

(** ** [int] reads back what [str] writes *)

Lemma digit_value_pretty_N_char (d : N) :
  (d < 10)%N → digit_value (pretty_N_char d) = Some (Z.of_N d).
Proof.
  intros Hd.
  assert (d = 0 ∨ d = 1 ∨ d = 2 ∨ d = 3 ∨ d = 4 ∨ d = 5 ∨ d = 6 ∨ d = 7
          ∨ d = 8 ∨ d = 9)%N as Hcases by lia.
  repeat (destruct Hcases as [-> | Hcases]; [reflexivity |]).
  by subst.
Qed.

(** A digit is not white space, a sign or an underscore, so a text that
    starts with one is parsed from its first character, with sign [+]. *)
Lemma int_of_str_digit_first (c : ascii) (r : string) (d : Z) :
  digit_value c = Some d →
  int_of_str (String c r) = finish_int 1 (scan_digits 0 false 0 (String c r)).
Proof.
  destruct c as [[] [] [] [] [] [] [] []]; intros Hd;
    solve [discriminate Hd | reflexivity].
Qed.

Lemma int_of_str_minus_digit (c : ascii) (r : string) (d : Z) :
  digit_value c = Some d →
  int_of_str (String "-" (String c r))
  = finish_int (-1) (scan_digits 0 false 0 (String c r)).
Proof.
  destruct c as [[] [] [] [] [] [] [] []]; intros Hd;
    solve [discriminate Hd | reflexivity].
Qed.

(** Scanning the digits that [pretty_N_go x s] puts in front of [s] shifts
    the accumulator by as many places and adds [x]; there are as many of
    them as [x] has decimal places. *)
Lemma scan_digits_pretty_N_go (x : N) :
  ∀ (s : string) (acc : Z) (n : nat),
    ∃ m : nat,
      scan_digits acc false n (pretty_N_go x s)
      = scan_digits (acc * 10 ^ Z.of_nat m + Z.of_N x) false (n + m) s
      ∧ String.length (pretty_N_go x s) = (m + String.length s)%nat
      ∧ ((0 < x)%N →
         (0 < m)%nat ∧ 10 ^ (Z.of_nat m - 1) ≤ Z.of_N x < 10 ^ Z.of_nat m).
Proof.
  induction (N.lt_wf_0 x) as [x _ IH]; intros s acc n.
  destruct (decide (x = 0%N)) as [-> | Hx].
  { exists 0%nat. rewrite pretty_N_go_0. split_and!; [| done | lia].
    f_equal; [simpl; lia | lia]. }
  assert (0 < x)%N as Hpos by lia.
  rewrite pretty_N_go_step by done.
  destruct (IH (x `div` 10)%N (N.div_lt x 10 Hpos eq_refl)
              (String (pretty_N_char (x `mod` 10)) s) acc n) as (m & Hm & Hlen & Hsize).
  pose proof (Z.div_mod (Z.of_N x) 10 ltac:(lia)) as Hdm.
  pose proof (Z.mod_pos_bound (Z.of_N x) 10 ltac:(lia)) as Hu.
  exists (S m). split_and!.
  - rewrite Hm. simpl scan_digits.
    rewrite digit_value_pretty_N_char by (apply N.mod_lt; lia).
    f_equal; [| lia].
    rewrite Nat2Z.inj_succ, Z.pow_succ_r by lia.
    rewrite N2Z.inj_div, N2Z.inj_mod. simpl Z.of_N.
    set (q := Z.of_N x `div` 10) in *. set (u := Z.of_N x `mod` 10) in *.
    rewrite Hdm. ring.
  - rewrite Hlen. simpl. lia.
  - intros _. split; [lia |].
    replace (Z.of_nat (S m) - 1) with (Z.of_nat m) by lia.
    rewrite Nat2Z.inj_succ, Z.pow_succ_r by lia.
    destruct (decide (x `div` 10 = 0)%N) as [Hq | Hq].
    + rewrite Hq, pretty_N_go_0 in Hlen. simpl in Hlen.
      assert (m = 0)%nat as -> by lia.
      assert (Z.of_N x `div` 10 = 0) as Hq'.
      { change 10 with (Z.of_N 10). by rewrite <- N2Z.inj_div, Hq. }
      change (10 ^ Z.of_nat 0) with 1. lia.
    + destruct Hsize as [Hm0 Hb]; [by apply N.neq_0_lt_0 |].
      rewrite N2Z.inj_div in Hb. simpl Z.of_N in Hb.
      destruct m as [| k]; [lia |].
      replace (Z.of_nat (S k) - 1) with (Z.of_nat k) in Hb by lia.
      rewrite Nat2Z.inj_succ, Z.pow_succ_r in Hb |- * by lia.
      set (P := 10 ^ Z.of_nat k) in *.
      set (q := Z.of_N x `div` 10) in *. set (u := Z.of_N x `mod` 10) in *.
      lia.
Qed.

Lemma pretty_N_go_digit_first (x : N) :
  ∀ s : string, (0 < x)%N →
    ∃ (d : N) (r : string), (d < 10)%N ∧ pretty_N_go x s = String (pretty_N_char d) r.
Proof.
  induction (N.lt_wf_0 x) as [x _ IH]; intros s Hpos.
  rewrite pretty_N_go_step by done.
  destruct (decide (x `div` 10 = 0)%N) as [Hq | Hq].
  - rewrite Hq, pretty_N_go_0. eexists _, _. split; [| done]. apply N.mod_lt. lia.
  - apply IH; [by apply N.div_lt | by apply N.neq_0_lt_0].
Qed.

Lemma append_String (c : ascii) (r s : string) : String c r ++ s = String c (r ++ s).
Proof. reflexivity. Qed.

Lemma append_assoc (s1 s2 s3 : string) : (s1 ++ s2) ++ s3 = s1 ++ (s2 ++ s3).
Proof.
  induction s1 as [| c r IH]; [reflexivity |].
  rewrite !append_String. by f_equal.
Qed.

Lemma pretty_N_go_append (x : N) :
  ∀ s : string, pretty_N_go x s = pretty_N_go x "" ++ s.
Proof.
  induction (N.lt_wf_0 x) as [x _ IH]; intros s.
  destruct (decide (x = 0%N)) as [-> | Hx]; [by rewrite !pretty_N_go_0 |].
  assert (0 < x)%N as Hpos by lia.
  rewrite (pretty_N_go_step x s), (pretty_N_go_step x "") by done.
  rewrite (IH (x `div` 10)%N (N.div_lt x 10 Hpos eq_refl) (String _ s)).
  rewrite (IH (x `div` 10)%N (N.div_lt x 10 Hpos eq_refl) (String _ "")).
  by rewrite append_assoc.
Qed.

(** ** How many digits a number has *)

Lemma digit_count_pos (p : positive) :
  digit_count (Z.pos p) = Z.of_nat (String.length (pretty_N_go (N.pos p) "")).
Proof.
  unfold digit_count, str_int. change (Z.abs (Z.pos p)) with (Z.pos p).
  change (pretty (Z.pos p)) with (pretty (N.pos p)).
  unfold pretty, pretty_N. by rewrite decide_False.
Qed.

Lemma digit_count_opp (z : Z) : digit_count (- z) = digit_count z.
Proof. unfold digit_count. by rewrite Z.abs_opp. Qed.

(** A number other than zero lies between the powers of ten that its
    digit count names. *)
Lemma digit_count_bounds (z : Z) :
  z ≠ 0 → 10 ^ (digit_count z - 1) ≤ Z.abs z < 10 ^ digit_count z.
Proof.
  assert (∀ p, 10 ^ (digit_count (Z.pos p) - 1) ≤ Z.pos p
               < 10 ^ digit_count (Z.pos p)) as Hpos.
  { intros p. rewrite digit_count_pos.
    destruct (scan_digits_pretty_N_go (N.pos p) "" 0 0) as (m & _ & Hlen & Hsize).
    rewrite Hlen, Nat.add_0_r. apply Hsize. lia. }
  destruct z as [| p | p]; intros Hz; [done | apply Hpos |].
  change (Z.neg p) with (- Z.pos p). rewrite digit_count_opp, Z.abs_opp. apply Hpos.
Qed.

Lemma digit_count_zero : digit_count 0 = 1.
Proof. reflexivity. Qed.

Lemma int_max_str_digits_pos : 0 < int_max_str_digits.
Proof. reflexivity. Qed.

(** The limit in terms of size: showing [z] is refused exactly when [z]
    is at least ten to the power of the limit, in absolute value. *)
Lemma exceeds_digit_limit_size (z : Z) :
  exceeds_digit_limit (digit_count z) = true ↔ 10 ^ int_max_str_digits ≤ Z.abs z.
Proof.
  pose proof int_max_str_digits_pos as Hlim.
  unfold exceeds_digit_limit.
  rewrite andb_true_iff, !Z.ltb_lt.
  destruct (decide (z = 0)) as [-> | Hz].
  { rewrite digit_count_zero. simpl Z.abs.
    pose proof (Z.pow_pos_nonneg 10 int_max_str_digits ltac:(lia) ltac:(lia)). lia. }
  pose proof (digit_count_bounds z Hz) as [Hlo Hhi].
  split.
  - intros [_ Hlt]. etrans; [| exact Hlo]. apply Z.pow_le_mono_r; lia.
  - intros Hge. split; [done |].
    apply (Z.pow_lt_mono_r_iff 10); [lia | | lia].
    assert (0 ≤ digit_count z) by (unfold digit_count; lia). lia.
Qed.

Lemma within_digit_limit_size (z : Z) :
  exceeds_digit_limit (digit_count z) = false ↔ Z.abs z < 10 ^ int_max_str_digits.
Proof.
  rewrite <- not_true_iff_false, exceeds_digit_limit_size. lia.
Qed.

Lemma append_length (s1 s2 : string) :
  String.length (s1 ++ s2) = (String.length s1 + String.length s2)%nat.
Proof.
  induction s1 as [| c r IH]; [reflexivity |].
  rewrite append_String. simpl. by rewrite IH.
Qed.

(** The decimal text of a positive number, followed by [s], starts with a
    digit, and scanning it reads the number, counts its digits and stops
    at [s]. *)
Lemma scan_digits_pretty_positive (p : positive) (s : string) :
  ∃ (c : ascii) (r : string) (d : Z) (m : nat),
    pretty_N_go (N.pos p) "" ++ s = String c r
    ∧ digit_value c = Some d
    ∧ (0 < m)%nat
    ∧ Z.of_nat m = digit_count (Z.pos p)
    ∧ scan_digits 0 false 0 (String c r) = scan_digits (Z.pos p) false m s.
Proof.
  rewrite <- pretty_N_go_append.
  destruct (pretty_N_go_digit_first (N.pos p) s) as (d & r & Hd & Hr); [lia |].
  destruct (scan_digits_pretty_N_go (N.pos p) s 0 0) as (m & Hm & Hlen & Hpos).
  exists (pretty_N_char d), r, (Z.of_N d), m.
  split; [done |]. split; [by apply digit_value_pretty_N_char |].
  split; [apply Hpos; lia |]. split.
  - rewrite digit_count_pos. f_equal.
    rewrite (pretty_N_go_append (N.pos p) s), append_length in Hlen. lia.
  - rewrite <- Hr, Hm. simpl. do 2 f_equal.
Qed.

Lemma finish_int_at_end (sign v : Z) (m : nat) :
  (0 < m)%nat →
  exceeds_digit_limit (Z.of_nat m) = false →
  finish_int sign (scan_digits v false m "") = Some (sign * v).
Proof.
  intros Hm Hlim. simpl. rewrite Hlim.
  by destruct m; [lia |].
Qed.

(** [int(str(z)) == z] for every integer [z] that [str] agrees to show. *)
Lemma int_of_str_str_int (z : Z) :
  exceeds_digit_limit (digit_count z) = false → int_of_str (str_int z) = Some z.
Proof.
  intros Hlim. unfold str_int, pretty, pretty_Z.
  destruct z as [| p | p]; [reflexivity | |].
  - unfold pretty, pretty_positive, pretty, pretty_N. rewrite decide_False by done.
    destruct (scan_digits_pretty_positive p "") as (c & r & d & m & Hr & Hd & Hm & Hcount & Hscan).
    rewrite <- pretty_N_go_append in Hr. rewrite Hr.
    rewrite (int_of_str_digit_first c r d Hd), Hscan.
    rewrite finish_int_at_end; [f_equal; lia | done | by rewrite Hcount].
  - unfold pretty, pretty_positive, pretty, pretty_N. rewrite decide_False by done.
    destruct (scan_digits_pretty_positive p "") as (c & r & d & m & Hr & Hd & Hm & Hcount & Hscan).
    rewrite <- pretty_N_go_append in Hr. rewrite Hr.
    change ("-" +:+ String c r) with (String "-" (String c r)).
    rewrite (int_of_str_minus_digit c r d Hd), Hscan.
    rewrite finish_int_at_end; [done | done |].
    rewrite Hcount. change (Z.neg p) with (- Z.pos p) in Hlim.
    by rewrite digit_count_opp in Hlim.
Qed.

(** ** get_integer_from_env *)

Example int_of_str_accepts :
  (int_of_str "42", int_of_str "-17", int_of_str "+5", int_of_str " 42 ",
   int_of_str "007", int_of_str "1_000")
  = (Some 42, Some (-17), Some 5, Some 42, Some 7, Some 1000).
Proof. reflexivity. Qed.

Example int_of_str_rejects :
  Forall (λ s, int_of_str s = None)
    ["abc"; ""; " "; "4 2"; "1.5"; "0x10"; "+"; "- 1"; "--1"; "_1"; "1_"; "1__0"; "12a"].
Proof. repeat constructor. Qed.

(** A decimal text with more digits than the limit allows is refused. *)
Lemma int_of_str_str_int_overlong (z : Z) :
  exceeds_digit_limit (digit_count z) = true → int_of_str (str_int z) = None.
Proof.
  intros Hlim. unfold str_int, pretty, pretty_Z.
  destruct z as [| p | p]; [discriminate Hlim | |].
  - unfold pretty, pretty_positive, pretty, pretty_N. rewrite decide_False by done.
    destruct (scan_digits_pretty_positive p "") as (c & r & d & m & Hr & Hd & Hm & Hcount & Hscan).
    rewrite <- pretty_N_go_append in Hr. rewrite Hr.
    rewrite (int_of_str_digit_first c r d Hd), Hscan. simpl.
    rewrite Hcount, Hlim. by destruct m.
  - unfold pretty, pretty_positive, pretty, pretty_N. rewrite decide_False by done.
    destruct (scan_digits_pretty_positive p "") as (c & r & d & m & Hr & Hd & Hm & Hcount & Hscan).
    rewrite <- pretty_N_go_append in Hr. rewrite Hr.
    change ("-" +:+ String c r) with (String "-" (String c r)).
    rewrite (int_of_str_minus_digit c r d Hd), Hscan. simpl.
    change (Z.neg p) with (- Z.pos p) in Hlim. rewrite digit_count_opp in Hlim.
    rewrite Hcount, Hlim. by destruct m.
Qed.

(** Scanning a text of digits reads all of it. *)
Lemma scan_digits_all_digits (s : string) :
  ∀ (acc : Z) (n : nat),
    forallb (λ c, bool_decide (is_Some (digit_value c))) (list_ascii_of_string s) = true →
    scan_digits acc false n s
    = Some (fold_left (λ a c, 10 * a + default 0 (digit_value c))
              (list_ascii_of_string s) acc,
            (n + String.length s)%nat, "").
Proof.
  induction s as [| c r IH]; intros acc n Hall; simpl.
  - by rewrite Nat.add_0_r.
  - simpl in Hall. apply andb_prop in Hall as [Hc Hr].
    apply bool_decide_eq_true in Hc as [d Hd]. rewrite Hd. simpl.
    rewrite IH by done. do 3 f_equal. lia.
Qed.

(** [int] on a text of decimal digits: its value, unless there are more
    digits than the limit allows. *)
Lemma int_of_str_decimal_text (v : string) :
  is_decimal_text v = true →
  int_of_str v
  = if exceeds_digit_limit (Z.of_nat (String.length v)) then None
    else Some (decimal_value v).
Proof.
  unfold is_decimal_text, decimal_value. intros [Hne Hall]%andb_prop.
  destruct v as [| c r]; [discriminate Hne |].
  pose proof Hall as Hc. simpl in Hc. apply andb_prop in Hc as [Hc _].
  apply bool_decide_eq_true in Hc as [d Hd].
  rewrite (int_of_str_digit_first c r d Hd), scan_digits_all_digits by done.
  unfold finish_int. rewrite Nat.add_0_l.
  change (String.length (String c r) =? 0)%nat with false.
  destruct (exceeds_digit_limit (Z.of_nat (String.length (String c r)))); [done |].
  change (skip_space "") with "". f_equal. lia.
Qed.

(** The outcome of [get_integer_from_env]: the parsed value where [int]
    succeeds, the fallback elsewhere. *)
Lemma get_integer_from_env_result (w : World) (env_variable : string)
    (default_value : Z) :
  result (get_integer_from_env env_variable default_value) w
  = match environ w !! env_variable with
    | None => fallback_outcome default_value
    | Some env_value =>
        match int_of_str env_value with
        | Some n => Return n
        | None => fallback_outcome default_value
        end
    end.
Proof.
  unfold get_integer_from_env, fallback_outcome. py_run.
  destruct (environ w !! env_variable) as [env_value|]; simpl.
  - destruct (int_of_str env_value); simpl; [done |].
    by destruct (exceeds_digit_limit (digit_count default_value)).
  - by destruct (exceeds_digit_limit (digit_count default_value)).
Qed.

Lemma fallback_outcome_within (default_value : Z) :
  exceeds_digit_limit (digit_count default_value) = false →
  fallback_outcome default_value = Return default_value.
Proof. intros Hlim. unfold fallback_outcome. by rewrite Hlim. Qed.

(** Where the default is too long to be shown, a fallback raises
    [ValueError] before anything is printed. *)
Lemma get_integer_from_env_refused (w : World) (env_variable : string)
    (default_value : Z) :
  exceeds_digit_limit (digit_count default_value) = true →
  match environ w !! env_variable with
  | Some env_value => int_of_str env_value = None
  | None => True
  end →
  get_integer_from_env env_variable default_value w = (Raise ValueError, w).
Proof.
  intros Hlim Hfall. unfold get_integer_from_env. py_run.
  destruct (environ w !! env_variable) as [env_value|]; simpl.
  - by rewrite Hfall, Hlim.
  - by rewrite Hlim.
Qed.

(** C5, as the code has it: [get_integer_from_env] returns the parsed
    integer when [int] reads the value, which it does for the decimal text
    of every integer of at most 4300 digits (e.g. "42"); it falls back on
    the default when the variable is unset or [int] refuses the value, and
    [int] refuses decimal text of more than 4300 digits.  The fallback
    returns the default whenever the default itself has at most 4300
    digits. *)
Theorem get_integer_from_env_spec (w : World) (env_variable : string)
    (default_value : Z) :
  (environ w !! env_variable = None →
   exceeds_digit_limit (digit_count default_value) = false →
   result (get_integer_from_env env_variable default_value) w = Return default_value)
  ∧ (∀ env_value,
       environ w !! env_variable = Some env_value →
       int_of_str env_value = None →
       exceeds_digit_limit (digit_count default_value) = false →
       result (get_integer_from_env env_variable default_value) w
       = Return default_value)
  ∧ (∀ env_value n,
       environ w !! env_variable = Some env_value →
       int_of_str env_value = Some n →
       result (get_integer_from_env env_variable default_value) w = Return n)
  ∧ (∀ z : Z,
       environ w !! env_variable = Some (str_int z) →
       exceeds_digit_limit (digit_count z) = false →
       result (get_integer_from_env env_variable default_value) w = Return z)
  ∧ (∀ env_value,
       environ w !! env_variable = Some env_value →
       is_decimal_text env_value = true →
       exceeds_digit_limit (Z.of_nat (String.length env_value)) = false →
       result (get_integer_from_env env_variable default_value) w
       = Return (decimal_value env_value))
  ∧ (∀ env_value,
       environ w !! env_variable = Some env_value →
       is_decimal_text env_value = true →
       exceeds_digit_limit (Z.of_nat (String.length env_value)) = true →
       exceeds_digit_limit (digit_count default_value) = false →
       result (get_integer_from_env env_variable default_value) w
       = Return default_value).
Proof.
  rewrite get_integer_from_env_result. split_and!.
  - intros -> Hlim. by apply fallback_outcome_within.
  - intros v -> -> Hlim. by apply fallback_outcome_within.
  - by intros v n -> ->.
  - intros z -> Hz. by rewrite int_of_str_str_int.
  - intros v -> Hv Hlen. by rewrite int_of_str_decimal_text, Hlen.
  - intros v -> Hv Hlen Hlim. rewrite int_of_str_decimal_text, Hlen by done.
    by apply fallback_outcome_within.
Qed.

Lemma get_integer_from_env_spec_witness :
  result (get_integer_from_env "NOPE" 7) world0 = Return 7
  ∧ result (get_integer_from_env "NAME" 7) world0 = Return 7
  ∧ result (get_integer_from_env "PORT" 7) world0 = Return 42
  ∧ result (get_integer_from_env "N" 7) (world_of "N" (str_int (-2026))) = Return (-2026)
  ∧ result (get_integer_from_env "N" 7) (world_of "N" "007") = Return (decimal_value "007")
  ∧ result (get_integer_from_env "N" 7) (world_of "N" ones_4301) = Return 7.
Proof.
  split_and!.
  - apply (proj1 (get_integer_from_env_spec world0 "NOPE" 7)); reflexivity.
  - apply (proj1 (proj2 (get_integer_from_env_spec world0 "NAME" 7)) "abc");
      reflexivity.
  - apply (proj1 (proj2 (proj2 (get_integer_from_env_spec world0 "PORT" 7))) "42" 42);
      reflexivity.
  - apply (proj1 (proj2 (proj2 (proj2
             (get_integer_from_env_spec (world_of "N" (str_int (-2026))) "N" 7))))
             (-2026)); reflexivity.
  - apply (proj1 (proj2 (proj2 (proj2 (proj2
             (get_integer_from_env_spec (world_of "N" "007") "N" 7))))) "007");
      reflexivity.
  - apply (proj2 (proj2 (proj2 (proj2 (proj2
             (get_integer_from_env_spec (world_of "N" ones_4301) "N" 7))))) ones_4301);
      [reflexivity | by vm_compute | by vm_compute | reflexivity].
Defined.

(** C5, where the claim as worded fails: a value of 4301 digits is decimal
    text and writes an integer other than 7, yet with default 7 the call
    prints its notice and returns 7. *)
Lemma get_integer_from_env_overlong_text :
  is_decimal_text ones_4301 = true
  ∧ String.length ones_4301 = 4301%nat
  ∧ decimal_value ones_4301 ≠ 7
  ∧ get_integer_from_env "N" 7 (world_of "N" ones_4301)
    = (Return 7,
       record_event
         (EvPrint "Error: N environment variable 'N' is not a valid integer. Defaulting to 7.")
         (world_of "N" ones_4301)).
Proof.
  split_and!.
  - by vm_compute.
  - by vm_compute.
  - apply Z.eqb_neq. by vm_compute.
  - by vm_compute.
Qed.

(** Ten to the power of the limit is the first number too long to show. *)
Lemma exceeds_digit_limit_first :
  exceeds_digit_limit (digit_count (10 ^ int_max_str_digits)) = true.
Proof.
  apply exceeds_digit_limit_size.
  rewrite Z.abs_eq by (apply Z.pow_nonneg; lia). apply Z.le_refl.
Qed.

(** C3 (the code departs from it): with the variable unset and a default
    of 4301 digits, [get_integer_from_env] does not return the default: the
    default cannot be shown in the notice, [ValueError] leaves the
    function, and nothing is printed. *)
Theorem get_integer_from_env_overlong_default_raises :
  environ world0 !! "NOPE" = None
  ∧ get_integer_from_env "NOPE" (10 ^ 4300) world0 = (Raise ValueError, world0).
Proof.
  split; [reflexivity |].
  change (10 ^ 4300) with (10 ^ int_max_str_digits).
  apply get_integer_from_env_refused; [apply exceeds_digit_limit_first |].
  by replace (environ world0 !! "NOPE") with (@None string).
Qed.

Example get_integer_from_env_abc :
  get_integer_from_env "NAME" 7 world0
  = (Return 7,
     record_event
       (EvPrint "Error: NAME environment variable 'NAME' is not a valid integer. Defaulting to 7.")
       world0).
Proof. reflexivity. Qed.

Example get_integer_from_env_absent :
  get_integer_from_env "NOPE" (-7) world0
  = (Return (-7),
     record_event
       (EvPrint "Environment variable NOPE has not been found. Defaulting to -7")
       world0).
Proof. reflexivity. Qed.

(** ** Which calls raise, and what *)









(** ** The accessors only read *)

#[local] Instance same_env_equiv : Equivalence same_env.
Proof.
  split.
  - by intros w.
  - intros w w' [Henv Hfs]. split; congruence.
  - intros w1 w2 w3 [Henv Hfs] [Henv' Hfs']. split; congruence.
Qed.

Lemma reader_ret {A} (a : A) : reader (ret a).
Proof. by intros w. Qed.

Lemma reader_raise {A} (e : exception) : reader (raise e : Py A).
Proof. by intros w. Qed.

Lemma reader_os_getenv (key : string) : reader (os_getenv key).
Proof.
  intros w. split; [done |]. intros w' [Henv _]. py_run. by rewrite Henv.
Qed.

Lemma reader_os_path_exists (path : string) : reader (os_path_exists path).
Proof.
  intros w. split; [done |]. intros w' [_ Hfs]. py_run. by rewrite Hfs.
Qed.

Lemma reader_print (line : string) : reader (print line).
Proof. by intros w. Qed.

Lemma reader_bind {A B} (c : Py A) (k : A → Py B) :
  reader c → (∀ a, reader (k a)) → reader (c ≫= k).
Proof.
  intros Hc Hk w. destruct (Hc w) as [Hw Hres]. py_unfold.
  destruct (c w) as [[a | e] w1] eqn:Hcw; simpl in *.
  - split.
    + etrans; [exact Hw |]. apply (Hk a w1).
    + intros w' Hw'. specialize (Hres w' Hw').
      destruct (Hc w') as [Hw1' _]. py_unfold.
      destruct (c w') as [o w1']; simpl in *; subst o.
      apply (Hk a w1). by rewrite <- Hw, Hw', Hw1'.
  - split; [done |].
    intros w' Hw'. specialize (Hres w' Hw').
    by destruct (c w') as [o w1']; simpl in *; subst o.
Qed.

Lemma reader_try_except_ValueError {A} (body handler : Py A) :
  reader body → reader handler → reader (try_except_ValueError body handler).
Proof.
  intros Hb Hh w. destruct (Hb w) as [Hw Hres]. py_unfold.
  assert (∀ w', same_env w w' →
            (match body w' with
             | (Raise ValueError, w1') => handler w1'
             | r => r
             end).1
            = (match body w with
               | (Raise ValueError, w1) => handler w1
               | r => r
               end).1) as Hsame.
  { intros w' Hw'. specialize (Hres w' Hw').
    destruct (Hb w') as [Hw1' _]. py_unfold.
    destruct (body w) as [o w1], (body w') as [o' w1']; simpl in *; subst o'.
    destruct o as [a | [ | name message]]; [done | | done].
    apply (Hh w1). by rewrite <- Hw, Hw', Hw1'. }
  split; [| exact Hsame].
  destruct (body w) as [[a | [ | name message]] w1]; simpl in *; [done | | done].
  etrans; [exact Hw |]. apply (Hh w1).
Qed.

Lemma reader_py_int (s : string) : reader (py_int s).
Proof. unfold py_int. destruct (int_of_str s); [apply reader_ret | apply reader_raise]. Qed.

Lemma reader_py_float {float : Type} (float_of_str : string → option float) (s : string) :
  reader (py_float float_of_str s).
Proof.
  unfold py_float. destruct (float_of_str s); [apply reader_ret | apply reader_raise].
Qed.

Lemma reader_py_str (o : option string) : reader (py_str o).
Proof. apply reader_ret. Qed.

Lemma reader_py_format_int (n : Z) : reader (py_format_int n).
Proof.
  unfold py_format_int.
  destruct (exceeds_digit_limit (digit_count n)); [apply reader_raise | apply reader_ret].
Qed.

Create HintDb reader.
#[local] Hint Resolve reader_ret reader_raise reader_os_getenv reader_os_path_exists
  reader_print reader_py_int reader_py_float reader_py_str reader_py_format_int
  : reader.

(** Walks a computation built from binds, handlers and case distinctions
    down to the primitive readers. *)
Ltac reader_steps :=
  repeat first
    [ solve [auto with reader]
    | apply reader_bind
    | apply reader_try_except_ValueError
    | match goal with
      | |- reader (match ?x with _ => _ end) => destruct x
      | |- ∀ _, reader _ => intro
      end ].

Lemma reader_get_log_directory (env_variable : string) :
  reader (get_log_directory env_variable).
Proof. unfold get_log_directory. reader_steps. Qed.

Lemma reader_get_path_from_env (env_variable : string) (check_if_exists : bool) :
  reader (get_path_from_env env_variable check_if_exists).
Proof. unfold get_path_from_env. reader_steps. Qed.

Lemma reader_get_integer_from_env (env_variable : string) (default_value : Z) :
  reader (get_integer_from_env env_variable default_value).
Proof. unfold get_integer_from_env. reader_steps. Qed.

Lemma reader_get_float_from_env {float : Type}
    (float_of_str : string → option float) (str_float : float → string)
    (env_variable : string) (default_value : float) :
  reader (get_float_from_env float_of_str str_float env_variable default_value).
Proof. unfold get_float_from_env. reader_steps. Qed.

Lemma reader_get_string_from_env (env_variable default_value : string)
    (error_on_missing_value : bool) :
  reader (get_string_from_env env_variable default_value error_on_missing_value).
Proof. unfold get_string_from_env. reader_steps. Qed.

Lemma reader_get_boolean_from_env (env_variable : string) (default_value : bool) :
  reader (get_boolean_from_env env_variable default_value).
Proof. unfold get_boolean_from_env. reader_steps. Qed.

Lemma reader_idempotent {A} (c : Py A) : reader c → idempotent c.
Proof.
  intros Hc w. destruct (Hc w) as [[Henv Hfs] Hres]. split_and!.
  - done.
  - done.
  - apply Hres. by split.
  - intros w' Henv' Hfs'. apply Hres. by split.
Qed.

(** C7: every accessor leaves the environment as it found it, and calling
    it again with the same arguments while the environment is unchanged
    gives the same outcome: the same value, or the same error. *)
Theorem accessors_idempotent {float : Type}
    (float_of_str : string → option float) (str_float : float → string)
    (name : string) (check_if_exists error_on_missing_value : bool)
    (default_string : string) (default_int : Z) (default_float : float)
    (default_bool : bool) :
  idempotent (get_log_directory name)
  ∧ idempotent (get_path_from_env name check_if_exists)
  ∧ idempotent (get_integer_from_env name default_int)
  ∧ idempotent (get_float_from_env float_of_str str_float name default_float)
  ∧ idempotent (get_string_from_env name default_string error_on_missing_value)
  ∧ idempotent (get_boolean_from_env name default_bool).
Proof.
  split_and!; apply reader_idempotent.
  - apply reader_get_log_directory.
  - apply reader_get_path_from_env.
  - apply reader_get_integer_from_env.
  - apply reader_get_float_from_env.
  - apply reader_get_string_from_env.
  - apply reader_get_boolean_from_env.
Qed.

(** A call may print, so the world as a whole does move on; only the
    environment and the file system stay put. *)
Example get_integer_from_env_twice :
  let c := get_integer_from_env "NAME" 7 in
  let w1 := world_after c world0 in
  let w2 := world_after c w1 in
  result c world0 = Return 7 ∧ result c w1 = Return 7
  ∧ length (events world0) = 0%nat ∧ length (events w1) = 1%nat
  ∧ length (events w2) = 2%nat
  ∧ environ w2 = environ world0.
Proof. by split_and!. Qed.

(** * Further properties of the accessors *)

(** ** The error class *)

(** X1: The error built by [EnvironmentVariableNotFoundError.__init__] keeps
    the variable name; its message is the one given when that is not empty
    and the standard sentence otherwise, so it is never empty. *)
Theorem EnvironmentVariableNotFoundError_message (variable_name message : string) :
  ∃ text,
    EnvironmentVariableNotFoundError variable_name message
    = NotFoundError variable_name text
    ∧ text ≠ ""
    ∧ (message ≠ "" → text = message)
    ∧ (message = "" →
       text = "Environment variable '" ++ variable_name ++ "' not found.").
Proof.
  unfold EnvironmentVariableNotFoundError.
  destruct (decide (message = "")) as [-> | Hne]; eexists; split_and!; done.
Qed.

(** ** get_float_from_env *)

Lemma get_float_from_env_result {float : Type}
    (float_of_str : string → option float) (str_float : float → string)
    (w : World) (env_variable : string) (default_value : float) :
  result (get_float_from_env float_of_str str_float env_variable default_value) w
  = Return
      match environ w !! env_variable with
      | None => default_value
      | Some env_value => default default_value (float_of_str env_value)
      end.
Proof.
  unfold get_float_from_env, py_float. py_run.
  destruct (environ w !! env_variable) as [env_value|]; simpl; [| done].
  by destruct (float_of_str env_value).
Qed.

(** X2: [get_float_from_env] returns the default when the variable is unset or
    [float] rejects its value, and what [float] computes otherwise. *)
Theorem get_float_from_env_spec {float : Type}
    (float_of_str : string → option float) (str_float : float → string)
    (w : World) (env_variable : string) (default_value : float) :
  (environ w !! env_variable = None →
   result (get_float_from_env float_of_str str_float env_variable default_value) w
   = Return default_value)
  ∧ (∀ env_value,
       environ w !! env_variable = Some env_value →
       float_of_str env_value = None →
       result (get_float_from_env float_of_str str_float env_variable default_value) w
       = Return default_value)
  ∧ (∀ env_value x,
       environ w !! env_variable = Some env_value →
       float_of_str env_value = Some x →
       result (get_float_from_env float_of_str str_float env_variable default_value) w
       = Return x).
Proof.
  rewrite get_float_from_env_result. split_and!.
  - by intros ->.
  - by intros v -> ->.
  - by intros v x -> ->.
Qed.

(** A stand-in for [float] on the texts [int] reads, to run the function. *)
Lemma get_float_from_env_spec_witness :
  result (get_float_from_env int_of_str str_int "NOPE" 7) world0 = Return 7
  ∧ result (get_float_from_env int_of_str str_int "NAME" 7) world0 = Return 7
  ∧ result (get_float_from_env int_of_str str_int "PORT" 7) world0 = Return 42.
Proof.
  split_and!.
  - apply (proj1 (get_float_from_env_spec int_of_str str_int world0 "NOPE" 7)).
    reflexivity.
  - apply (proj1 (proj2 (get_float_from_env_spec int_of_str str_int world0 "NAME" 7))
             "abc"); reflexivity.
  - apply (proj2 (proj2 (get_float_from_env_spec int_of_str str_int world0 "PORT" 7))
             "42" 42); reflexivity.
Defined.

(** ** What a returned path tells *)

Lemma get_path_from_env_result (w : World) (env_variable : string)
    (check_if_exists : bool) :
  result (get_path_from_env env_variable check_if_exists) w
  = match environ w !! env_variable with
    | None => Raise (EnvironmentVariableNotFoundError env_variable "")
    | Some env_value =>
        if check_if_exists && negb (bool_decide (env_value ∈ fs w))
        then Raise (EnvironmentVariableNotFoundError env_variable "")
        else Return (Path env_value)
    end.
Proof.
  unfold get_path_from_env. py_run.
  destruct (environ w !! env_variable) as [env_value|]; simpl; [| done].
  destruct check_if_exists; simpl; [| done].
  by destruct (bool_decide (env_value ∈ fs w)).
Qed.

(** X3: When [get_path_from_env] returns a path, the variable is set and
    the path is the path object built from its value; with
    [check_if_exists] true, the value, as it is written, exists. *)
Theorem get_path_from_env_returns (w : World) (env_variable : string)
    (check_if_exists : bool) (path : PurePath) :
  result (get_path_from_env env_variable check_if_exists) w = Return path →
  ∃ env_value,
    environ w !! env_variable = Some env_value
    ∧ path = Path env_value
    ∧ (check_if_exists = true → env_value ∈ fs w).
Proof.
  rewrite get_path_from_env_result.
  destruct (environ w !! env_variable) as [env_value|]; [| done].
  destruct check_if_exists; simpl.
  - case_bool_decide; simpl; [| done]. intros [= <-]. by exists env_value.
  - intros [= <-]. by exists env_value.
Qed.

Lemma get_path_from_env_returns_witness :
  result (get_path_from_env "LOGS" true) world0 = Return (Path "/var/log")
  ∧ ∃ env_value,
      environ world0 !! "LOGS" = Some env_value
      ∧ Path "/var/log" = Path env_value
      ∧ (true = true → env_value ∈ fs world0).
Proof.
  split; [reflexivity |].
  apply (get_path_from_env_returns world0 "LOGS" true (Path "/var/log")).
  reflexivity.
Defined.

(** The path object does not keep the text it was built from: a trailing
    or doubled slash and "." components are gone, and the empty text gives
    the current directory. *)
Example Path_normal_form :
  Path "/var/log/" = Path "/var/log"
  ∧ Path "/var//log/./" = Path "/var/log"
  ∧ Path "" = Path "."
  ∧ Path "./logs" = Path "logs"
  ∧ Path "///var" = Path "/var"
  ∧ Path "//var" ≠ Path "/var"
  ∧ Path "a/../b" ≠ Path "b"
  ∧ str_path (Path "/var/log/") = "/var/log"
  ∧ str_path (Path "") = "."
  ∧ str_path (Path "logs//app/") = "logs/app".
Proof. by split_and!. Qed.

(** X4: When [get_log_directory] returns a path, either the variable is
    unset and the path is ["."] (which is not looked up), or the variable
    is set, its value, as it is written, exists, and the path is the path
    object built from that value. *)
Theorem get_log_directory_returns (w : World) (env_variable : string)
    (path : PurePath) :
  result (get_log_directory env_variable) w = Return path →
  (environ w !! env_variable = None ∧ path = Path ".")
  ∨ (∃ log_directory,
       environ w !! env_variable = Some log_directory
       ∧ path = Path log_directory
       ∧ log_directory ∈ fs w).
Proof.
  rewrite get_log_directory_result.
  destruct (environ w !! env_variable) as [log_directory|].
  - destruct (decide (log_directory ∈ fs w)); [| done].
    intros [= <-]. right. by exists log_directory.
  - intros [= <-]. by left.
Qed.

Lemma get_log_directory_returns_witness :
  result (get_log_directory "LOGS") world0 = Return (Path "/var/log")
  ∧ ((environ world0 !! "LOGS" = None ∧ Path "/var/log" = Path ".")
     ∨ (∃ log_directory,
          environ world0 !! "LOGS" = Some log_directory
          ∧ Path "/var/log" = Path log_directory
          ∧ log_directory ∈ fs world0)).
Proof.
  split; [reflexivity |].
  apply (get_log_directory_returns world0 "LOGS" (Path "/var/log")). reflexivity.
Defined.

(** X5: For a variable that is set, [get_log_directory] is
    [get_path_from_env] with [check_if_exists] true: same outcome, same
    file-system query.  The two part ways only on an unset variable. *)
Theorem get_log_directory_as_checked_path (w : World) (env_variable env_value : string) :
  environ w !! env_variable = Some env_value →
  get_log_directory env_variable w = get_path_from_env env_variable true w.
Proof.
  intros Hset. unfold get_log_directory, get_path_from_env. py_run.
  rewrite Hset. simpl. by destruct (bool_decide (env_value ∈ fs w)).
Qed.

Lemma get_log_directory_as_checked_path_witness :
  environ world0 !! "LOGS" = Some "/var/log"
  ∧ environ world0 !! "GONE" = Some "/no/such"
  ∧ get_log_directory "LOGS" world0 = get_path_from_env "LOGS" true world0
  ∧ get_log_directory "GONE" world0 = get_path_from_env "GONE" true world0.
Proof.
  do 2 (split; [reflexivity |]). split.
  - apply (get_log_directory_as_checked_path world0 "LOGS" "/var/log"). reflexivity.
  - apply (get_log_directory_as_checked_path world0 "GONE" "/no/such"). reflexivity.
Defined.

(** ** What a call does besides returning *)

Lemma new_events_unchanged {A} (c : Py A) (w : World) :
  world_after c w = w → new_events c w = [].
Proof. intros Hw. unfold new_events. rewrite Hw. apply drop_all. Qed.

Lemma new_events_one {A} (c : Py A) (w : World) (e : event) :
  world_after c w = record_event e w → new_events c w = [e].
Proof. intros Hw. unfold new_events. rewrite Hw. simpl. apply drop_app_length. Qed.

Lemma get_integer_from_env_announces (name : string) (default_value : Z) :
  exceeds_digit_limit (digit_count default_value) = false →
  announces_fallback (get_integer_from_env name default_value) name
    (λ v, bool_decide (is_Some (int_of_str v))).
Proof.
  intros Hlim w. destruct (environ w !! name) as [v|] eqn:Hv.
  - destruct (int_of_str v) as [n|] eqn:Hn.
    + rewrite bool_decide_eq_true_2 by done. apply new_events_unchanged.
      unfold get_integer_from_env. py_run. by rewrite Hv, Hn.
    + rewrite bool_decide_eq_false_2 by (by intros [??]).
      eexists. apply new_events_one.
      unfold get_integer_from_env. py_run. by rewrite Hv, Hn, Hlim.
  - eexists. apply new_events_one.
    unfold get_integer_from_env. py_run. by rewrite Hv, Hlim.
Qed.

Lemma get_float_from_env_announces {float : Type}
    (float_of_str : string → option float) (str_float : float → string)
    (name : string) (default_value : float) :
  announces_fallback (get_float_from_env float_of_str str_float name default_value) name
    (λ v, bool_decide (is_Some (float_of_str v))).
Proof.
  intros w. destruct (environ w !! name) as [v|] eqn:Hv.
  - destruct (float_of_str v) as [x|] eqn:Hx.
    + rewrite bool_decide_eq_true_2 by done. apply new_events_unchanged.
      unfold get_float_from_env, py_float. py_run. by rewrite Hv, Hx.
    + rewrite bool_decide_eq_false_2 by (by intros [??]).
      eexists. apply new_events_one.
      unfold get_float_from_env, py_float. py_run. by rewrite Hv, Hx.
  - eexists. apply new_events_one.
    unfold get_float_from_env. py_run. by rewrite Hv.
Qed.

Lemma boolean_word_split (v : string) :
  boolean_word v
  = bool_decide (lower v ∈ ["true"; "1"; "yes"; "on"])
    || bool_decide (lower v ∈ ["false"; "0"; "no"; "off"]).
Proof.
  unfold boolean_word.
  destruct (decide (lower v ∈ ["true"; "1"; "yes"; "on"])) as [Ht | Ht];
    destruct (decide (lower v ∈ ["false"; "0"; "no"; "off"])) as [Hf | Hf];
    rewrite ?(bool_decide_eq_true_2 _ Ht), ?(bool_decide_eq_false_2 _ Ht),
      ?(bool_decide_eq_true_2 _ Hf), ?(bool_decide_eq_false_2 _ Hf); simpl;
    [apply bool_decide_eq_true_2 .. | apply bool_decide_eq_false_2; intros Hin;
                                       apply list_elem_of_In in Hin];
    rewrite ?list_elem_of_In in *; simpl in *; tauto.
Qed.

Lemma get_boolean_from_env_announces (name : string) (default_value : bool) :
  announces_fallback (get_boolean_from_env name default_value) name boolean_word.
Proof.
  intros w. destruct (environ w !! name) as [v|] eqn:Hv.
  - rewrite boolean_word_split.
    destruct (bool_decide (lower v ∈ ["true"; "1"; "yes"; "on"])) eqn:Ht; simpl.
    { apply new_events_unchanged.
      unfold get_boolean_from_env. py_run. by rewrite Hv, Ht. }
    destruct (bool_decide (lower v ∈ ["false"; "0"; "no"; "off"])) eqn:Hf.
    { apply new_events_unchanged.
      unfold get_boolean_from_env. py_run. by rewrite Hv, Ht, Hf. }
    eexists. apply new_events_one.
    unfold get_boolean_from_env. py_run. by rewrite Hv, Ht, Hf.
  - eexists. apply new_events_one.
    unfold get_boolean_from_env. py_run. by rewrite Hv.
Qed.

(** X6: The three accessors that fall back on a default say so: a call
    makes exactly one call of [print] when the variable is unset or its
    value is rejected, and none when the value is accepted; for
    [get_integer_from_env] this needs a default of at most 4300 digits, so
    that the notice can be written.  None of them ever asks the file
    system. *)
Theorem fallback_announced {float : Type}
    (float_of_str : string → option float) (str_float : float → string)
    (name : string) (default_int : Z) (default_float : float) (default_bool : bool) :
  exceeds_digit_limit (digit_count default_int) = false →
  announces_fallback (get_integer_from_env name default_int) name
    (λ v, bool_decide (is_Some (int_of_str v)))
  ∧ announces_fallback (get_float_from_env float_of_str str_float name default_float) name
      (λ v, bool_decide (is_Some (float_of_str v)))
  ∧ announces_fallback (get_boolean_from_env name default_bool) name boolean_word.
Proof.
  intros Hlim. split_and!.
  - by apply get_integer_from_env_announces.
  - apply get_float_from_env_announces.
  - apply get_boolean_from_env_announces.
Qed.

Lemma fallback_announced_witness :
  exceeds_digit_limit (digit_count 7) = false
  ∧ announces_fallback (get_integer_from_env "NAME" 7) "NAME"
      (λ v, bool_decide (is_Some (int_of_str v)))
  ∧ announces_fallback (get_boolean_from_env "NAME" false) "NAME" boolean_word.
Proof.
  split; [reflexivity |].
  destruct (fallback_announced int_of_str str_int "NAME" 7 0 false) as (Hint & _ & Hbool);
    [reflexivity |].
  split; [exact Hint | exact Hbool].
Defined.

(** With a default too long to be shown, a fallback of
    [get_integer_from_env] prints nothing at all. *)
Example get_integer_from_env_overlong_default_silent :
  new_events (get_integer_from_env "NOPE" (10 ^ 4300)) world0 = [].
Proof.
  apply new_events_unchanged. unfold world_after.
  change (10 ^ 4300) with (10 ^ int_max_str_digits).
  rewrite (get_integer_from_env_refused world0 "NOPE" (10 ^ int_max_str_digits)).
  - reflexivity.
  - apply exceeds_digit_limit_first.
  - by replace (environ world0 !! "NOPE") with (@None string).
Qed.

(** X7: The three accessors that may raise never print.  [get_string_from_env]
    leaves the whole world as it was, whether it returns or raises;
    [get_path_from_env] and [get_log_directory] make one file-system query,
    on the variable's value, when the variable is set (and, for
    [get_path_from_env], [check_if_exists] is true), and none otherwise. *)
Theorem raising_accessors_effects (w : World) (name default_value : string)
    (check_if_exists error_on_missing_value : bool) :
  world_after (get_string_from_env name default_value error_on_missing_value) w = w
  ∧ new_events (get_path_from_env name check_if_exists) w
    = match environ w !! name with
      | Some env_value => if check_if_exists then [EvStat env_value] else []
      | None => []
      end
  ∧ new_events (get_log_directory name) w
    = match environ w !! name with
      | Some log_directory => [EvStat log_directory]
      | None => []
      end.
Proof.
  split_and!.
  - unfold get_string_from_env. py_run.
    by destruct (error_on_missing_value && bool_decide (environ w !! name = None)).
  - destruct (environ w !! name) as [v|] eqn:Hv.
    + destruct check_if_exists.
      * apply new_events_one. unfold get_path_from_env. py_run. rewrite Hv. simpl.
        by destruct (bool_decide (v ∈ fs w)).
      * apply new_events_unchanged. unfold get_path_from_env. py_run. by rewrite Hv.
    + apply new_events_unchanged. unfold get_path_from_env. py_run. by rewrite Hv.
  - destruct (environ w !! name) as [v|] eqn:Hv.
    + apply new_events_one. unfold get_log_directory. py_run. rewrite Hv. simpl.
      by destruct (bool_decide (v ∈ fs w)).
    + apply new_events_unchanged. unfold get_log_directory. py_run. by rewrite Hv.
Qed.

(** ** get_boolean_from_env reads the value up to letter case, and as a whole *)

Lemma lower_char_idemp (c : ascii) : lower_char (lower_char c) = lower_char c.
Proof. by destruct c as [[] [] [] [] [] [] [] []]. Qed.

Lemma lower_idemp (s : string) : lower (lower s) = lower s.
Proof. induction s as [| c r IH]; simpl; [done |]. by rewrite lower_char_idemp, IH. Qed.

Lemma int_space_lower_char (c : ascii) : int_space (lower_char c) = int_space c.
Proof. by destruct c as [[] [] [] [] [] [] [] []]. Qed.

Lemma has_space_lower (s : string) : has_space (lower s) = has_space s.
Proof.
  induction s as [| c r IH]; simpl; [done |]. by rewrite int_space_lower_char, IH.
Qed.

Lemma boolean_word_no_space (v : string) :
  has_space v = true → boolean_word v = false.
Proof.
  intros Hsp. apply bool_decide_eq_false_2. intros Hin.
  rewrite <- has_space_lower in Hsp.
  apply list_elem_of_In in Hin. simpl in Hin.
  repeat (destruct Hin as [Heq | Hin]; [rewrite <- Heq in Hsp; discriminate Hsp |]).
  done.
Qed.

(** X8: Letter case of the value does not matter to [get_boolean_from_env]:
    two values with the same lower-case form give the same outcome, and so
    does a value and its lower-case form. *)
Theorem get_boolean_from_env_case_insensitive (w w' : World)
    (env_variable v v' : string) (default_value : bool) :
  environ w !! env_variable = Some v →
  environ w' !! env_variable = Some v' →
  lower v = lower v' →
  result (get_boolean_from_env env_variable default_value) w
  = result (get_boolean_from_env env_variable default_value) w'.
Proof.
  intros Hv Hv' Hlower. rewrite !get_boolean_from_env_result, Hv, Hv'.
  by rewrite Hlower.
Qed.

Lemma get_boolean_from_env_case_insensitive_witness :
  lower "yEs" = lower "YES"
  ∧ result (get_boolean_from_env "FLAG" false) (world_of "FLAG" "yEs")
    = result (get_boolean_from_env "FLAG" false) (world_of "FLAG" "YES")
  ∧ result (get_boolean_from_env "FLAG" false) (world_of "FLAG" "yEs")
    = result (get_boolean_from_env "FLAG" false) (world_of "FLAG" (lower "yEs")).
Proof.
  split; [reflexivity |]. split.
  - apply (get_boolean_from_env_case_insensitive
             (world_of "FLAG" "yEs") (world_of "FLAG" "YES") "FLAG" "yEs" "YES");
      reflexivity.
  - apply (get_boolean_from_env_case_insensitive
             (world_of "FLAG" "yEs") (world_of "FLAG" (lower "yEs")) "FLAG"
             "yEs" (lower "yEs")); [reflexivity | reflexivity |].
    symmetry. apply lower_idemp.
Defined.

(** X9: [get_boolean_from_env] does not trim: a value with a white-space
    character anywhere in it (a trailing newline, say) is not recognised,
    and the default is returned. *)
Theorem get_boolean_from_env_no_trimming (w : World) (env_variable env_value : string)
    (default_value : bool) :
  environ w !! env_variable = Some env_value →
  has_space env_value = true →
  result (get_boolean_from_env env_variable default_value) w = Return default_value.
Proof.
  intros Hv Hsp. rewrite get_boolean_from_env_result, Hv.
  pose proof (boolean_word_no_space env_value Hsp) as Hword.
  rewrite boolean_word_split in Hword. apply orb_false_elim in Hword as [Ht Hf].
  apply bool_decide_eq_false in Ht, Hf. by rewrite !decide_False.
Qed.

Lemma get_boolean_from_env_no_trimming_witness :
  has_space "true " = true
  ∧ result (get_boolean_from_env "FLAG" false) (world_of "FLAG" "true ") = Return false.
Proof.
  split; [reflexivity |].
  apply (get_boolean_from_env_no_trimming (world_of "FLAG" "true ") "FLAG" "true ");
    reflexivity.
Defined.

(** ** get_integer_from_env and white space *)

Lemma skip_space_all_space (ws s : string) :
  all_space ws = true → skip_space (ws ++ s) = skip_space s.
Proof.
  induction ws as [| c r IH]; [done |].
  rewrite append_String. simpl.
  intros [Hc Hr]%andb_prop. rewrite Hc. by apply IH.
Qed.

Lemma skip_space_only_space (ws : string) :
  all_space ws = true → skip_space ws = "".
Proof.
  induction ws as [| c r IH]; simpl; [done |].
  intros [Hc Hr]%andb_prop. rewrite Hc. by apply IH.
Qed.

Lemma int_space_not_digit (c : ascii) :
  int_space c = true → digit_value c = None ∧ Ascii.eqb c "_" = false.
Proof. destruct c as [[] [] [] [] [] [] [] []]; intros Hc; done. Qed.

(** Digits end where white space starts. *)
Lemma scan_digits_at_space (acc : Z) (n : nat) (ws : string) :
  all_space ws = true → scan_digits acc false n ws = Some (acc, n, ws).
Proof.
  destruct ws as [| c r]; simpl; [done |].
  intros [Hc _]%andb_prop. by destruct (int_space_not_digit c Hc) as [-> ->].
Qed.

Lemma int_of_str_leading_space (ws s : string) :
  all_space ws = true → int_of_str (ws ++ s) = int_of_str s.
Proof. intros Hws. unfold int_of_str. by rewrite skip_space_all_space. Qed.

Lemma finish_int_at_space (sign v : Z) (m : nat) (ws : string) :
  (0 < m)%nat →
  exceeds_digit_limit (Z.of_nat m) = false →
  all_space ws = true →
  finish_int sign (scan_digits v false m ws) = Some (sign * v).
Proof.
  intros Hm Hlim Hws. rewrite scan_digits_at_space by done. simpl.
  rewrite Hlim, skip_space_only_space by done.
  by destruct m; [lia |].
Qed.

Lemma int_of_str_str_int_then_space (z : Z) (ws : string) :
  exceeds_digit_limit (digit_count z) = false →
  all_space ws = true → int_of_str (str_int z ++ ws) = Some z.
Proof.
  intros Hlim Hws. unfold str_int, pretty, pretty_Z.
  destruct z as [| p | p].
  - change ("0" ++ ws) with (String "0" ws).
    rewrite (int_of_str_digit_first "0" ws 0 eq_refl). simpl scan_digits.
    rewrite finish_int_at_space; [reflexivity | lia | reflexivity | done].
  - unfold pretty, pretty_positive, pretty, pretty_N. rewrite decide_False by done.
    destruct (scan_digits_pretty_positive p ws)
      as (c & r & d & m & -> & Hd & Hm & Hcount & Hscan).
    rewrite (int_of_str_digit_first c r d Hd), Hscan.
    rewrite finish_int_at_space; [f_equal; lia | done | by rewrite Hcount | done].
  - unfold pretty, pretty_positive, pretty, pretty_N. rewrite decide_False by done.
    change (("-" +:+ pretty_N_go (N.pos p) "") ++ ws)
      with (String "-" (pretty_N_go (N.pos p) "" ++ ws)).
    destruct (scan_digits_pretty_positive p ws)
      as (c & r & d & m & -> & Hd & Hm & Hcount & Hscan).
    rewrite (int_of_str_minus_digit c r d Hd), Hscan.
    rewrite finish_int_at_space; [done | done | | done].
    rewrite Hcount. change (Z.neg p) with (- Z.pos p) in Hlim.
    by rewrite digit_count_opp in Hlim.
Qed.

(** X10: [get_integer_from_env] trims: white space before and after the
    decimal text of an integer of at most 4300 digits (a trailing newline,
    say) does not keep it from being read. *)
Theorem get_integer_from_env_trims (w : World) (env_variable before after : string)
    (z default_value : Z) :
  environ w !! env_variable = Some (before ++ str_int z ++ after) →
  exceeds_digit_limit (digit_count z) = false →
  all_space before = true →
  all_space after = true →
  result (get_integer_from_env env_variable default_value) w = Return z.
Proof.
  intros Hv Hz Hb Ha. rewrite get_integer_from_env_result, Hv.
  by rewrite int_of_str_leading_space, int_of_str_str_int_then_space.
Qed.

Lemma get_integer_from_env_trims_witness :
  exceeds_digit_limit (digit_count (-15)) = false
  ∧ all_space "  " = true
  ∧ all_space (String (chr 10) "") = true
  ∧ result (get_integer_from_env "N" 7)
      (world_of "N" ("  " ++ str_int (-15) ++ String (chr 10) "")) = Return (-15).
Proof.
  do 3 (split; [reflexivity |]).
  apply (get_integer_from_env_trims
           (world_of "N" ("  " ++ str_int (-15) ++ String (chr 10) ""))
           "N" "  " (String (chr 10) "") (-15) 7); reflexivity.
Defined.

(** X11: A result other than the default can only come from the variable: it
    is then set, and [int] reads that result from its value. *)
Theorem get_integer_from_env_non_default (w : World) (env_variable : string)
    (default_value n : Z) :
  result (get_integer_from_env env_variable default_value) w = Return n →
  n ≠ default_value →
  ∃ env_value, environ w !! env_variable = Some env_value ∧ int_of_str env_value = Some n.
Proof.
  rewrite get_integer_from_env_result. intros Hn Hne.
  assert (fallback_outcome default_value ≠ Return n) as Hfall.
  { unfold fallback_outcome.
    destruct (exceeds_digit_limit (digit_count default_value)); congruence. }
  destruct (environ w !! env_variable) as [v|]; [| done].
  exists v. split; [done |].
  destruct (int_of_str v) as [n'|]; [congruence | done].
Qed.

Lemma get_integer_from_env_non_default_witness :
  result (get_integer_from_env "PORT" 7) world0 = Return 42
  ∧ 42 ≠ 7
  ∧ ∃ env_value, environ world0 !! "PORT" = Some env_value ∧ int_of_str env_value = Some 42.
Proof.
  split; [reflexivity |]. split; [lia |].
  apply (get_integer_from_env_non_default world0 "PORT" 7 42); [reflexivity | lia].
Defined.

(** ** An unset variable and the text "None" *)

(** X12: Without [error_on_missing_value], [get_string_from_env] gives the same
    outcome for an unset variable as for one set to the text ["None"]: the
    caller cannot tell the two apart. *)
Theorem get_string_from_env_unset_like_None_text (w w' : World)
    (env_variable default_value : string) :
  environ w !! env_variable = None →
  environ w' !! env_variable = Some "None" →
  result (get_string_from_env env_variable default_value false) w
  = result (get_string_from_env env_variable default_value false) w'.
Proof.
  intros Hunset Hset. unfold get_string_from_env. py_run. by rewrite Hunset, Hset.
Qed.

Lemma get_string_from_env_unset_like_None_text_witness :
  environ world0 !! "NOPE" = None
  ∧ environ (world_of "NOPE" "None") !! "NOPE" = Some "None"
  ∧ result (get_string_from_env "NOPE" "fallback" false) world0
    = result (get_string_from_env "NOPE" "fallback" false) (world_of "NOPE" "None").
Proof.
  do 2 (split; [reflexivity |]).
  apply (get_string_from_env_unset_like_None_text world0 (world_of "NOPE" "None")
           "NOPE" "fallback"); reflexivity.
Defined.

(** ** Calls do not get in each other's way *)

Lemma reader_unaffected {A B} (c1 : Py A) (c2 : Py B) :
  reader c1 → reader c2 → unaffected_by c2 (world_after c1).
Proof.
  intros H1 H2 w. destruct (H1 w) as [Hsame _]. by apply (H2 w).
Qed.

(** X13: The outcome of an accessor call is the same whichever accessor was
    called just before it, with whatever arguments: what one call prints
    or asks has no bearing on the next. *)
Theorem accessors_do_not_interfere {float : Type}
    (float_of_str : string → option float) (str_float : float → string)
    (name0 : string) (check0 error0 : bool) (string0 : string) (int0 : Z)
    (float0 : float) (bool0 : bool)
    (name : string) (check_if_exists error_on_missing_value : bool)
    (default_string : string) (default_int : Z) (default_float : float)
    (default_bool : bool) :
  Forall
    (λ step,
       unaffected_by (get_log_directory name) step
       ∧ unaffected_by (get_path_from_env name check_if_exists) step
       ∧ unaffected_by (get_integer_from_env name default_int) step
       ∧ unaffected_by (get_float_from_env float_of_str str_float name default_float) step
       ∧ unaffected_by
           (get_string_from_env name default_string error_on_missing_value) step
       ∧ unaffected_by (get_boolean_from_env name default_bool) step)
    (accessor_steps float_of_str str_float name0 check0 error0 string0 int0 float0 bool0).
Proof.
  assert (∀ {A} (c1 : Py A), reader c1 →
            unaffected_by (get_log_directory name) (world_after c1)
            ∧ unaffected_by (get_path_from_env name check_if_exists) (world_after c1)
            ∧ unaffected_by (get_integer_from_env name default_int) (world_after c1)
            ∧ unaffected_by
                (get_float_from_env float_of_str str_float name default_float)
                (world_after c1)
            ∧ unaffected_by
                (get_string_from_env name default_string error_on_missing_value)
                (world_after c1)
            ∧ unaffected_by (get_boolean_from_env name default_bool) (world_after c1))
    as Hstep.
  { intros A c1 H1. split_and!; apply reader_unaffected; try done.
    - apply reader_get_log_directory.
    - apply reader_get_path_from_env.
    - apply reader_get_integer_from_env.
    - apply reader_get_float_from_env.
    - apply reader_get_string_from_env.
    - apply reader_get_boolean_from_env. }
  unfold accessor_steps. repeat apply Forall_cons_2; [.. | apply Forall_nil_2];
    apply Hstep.
  - apply reader_get_log_directory.
  - apply reader_get_path_from_env.
  - apply reader_get_integer_from_env.
  - apply reader_get_float_from_env.
  - apply reader_get_string_from_env.
  - apply reader_get_boolean_from_env.
Qed.

Example get_boolean_after_get_integer :
  let w1 := world_after (get_integer_from_env "NAME" 7) world0 in
  w1 ≠ world0
  ∧ result (get_boolean_from_env "DEBUG" false) w1
    = result (get_boolean_from_env "DEBUG" false) world0.
Proof.
  split; [| reflexivity].
  intros Heq. apply (f_equal (λ w, length (events w))) in Heq. discriminate Heq.
Qed.
